(** * Automation-condition evaluation engine

    A shallow embedding of
    [dagster/_core/definitions/asset_automation_evaluator.py]:
    the condition tree ([RuleCondition], [AndAutomationCondition],
    [OrAutomationCondition], [NorAutomationCondition]), its construction
    operators ([&], [|], [~]), its evaluation over partition subsets, the
    flattening of an evaluation tree into rule results, the legacy adapter
    and the top-level [AssetAutomationEvaluator].

    Partition subsets are finite sets ([gset]) of partition keys of the one
    asset under evaluation.  The collaborators that live in other modules
    (rules, evaluation contexts, cursors, the serialized legacy record) are
    the fields of the class [Collaborators]: the engine is verified for
    every instance of it.  Rule evaluation is taken to return; an exception
    raised by a rule aborts the whole pass and is outside this development.

    Attribute lookup follows the class statements.  Each condition class
    lists the abstract base [AutomationCondition] before its NamedTuple
    base, so [self.children] is answered by the abstract property of the
    base class (lines 186-188), which raises [NotImplementedError]; the
    stored sequence of a composite node is never reached that way.  Every
    method that reads [self.children] is embedded as written and raises
    where the source does. *)

From stdpp Require Import base option list gmap sets strings.
From Stdlib Require Import ZArith.

(** ** Partition subsets *)

(** A partition of the asset under evaluation is named by its key. *)
Abbreviation PartitionKey := string.

(** Modelled from the spec: [AssetSubset] (asset_subset.py is not among the
    sources) is an immutable set-like value with union [|], intersection
    [&], difference [-], [size] and an [empty] constructor.  All subsets of
    one evaluation pass belong to the same asset, so a subset is the finite
    set of its partition keys. *)
Abbreviation AssetSubset := (gset string).

(** Modelled from the spec: [AssetSubset.empty(asset_key, partitions_def)]
    is the subset with no members. *)
Definition AssetSubset_empty : AssetSubset := ∅.

(** Modelled from the spec:
    [AssetSubset.from_asset_partitions_set(asset_key, partitions_def, s)] is
    the subset containing exactly the given asset partitions. *)
Definition from_asset_partitions_set (asset_partitions : gset string)
  : AssetSubset := asset_partitions.

(** ** Outcome of a call that may raise *)

Inductive PyError := ValueError | NotImplementedError | IndexError.

Inductive outcome (A : Type) :=
| Returned (value : A)
| Raised (error : PyError).
Arguments Returned {A} value.
Arguments Raised {A} error.

#[global] Instance outcome_ret : MRet outcome := λ A value, Returned value.

#[global] Instance outcome_bind : MBind outcome := λ A B f m,
  match m with
  | Returned value => f value
  | Raised error => Raised error
  end.

(** The verbose log written by [RuleCondition.evaluate]:
    ["Evaluating rule: {snapshot}"] and ["Rule returned {n} partitions"]. *)
Inductive LogEntry (Snapshot : Type) :=
| EvaluatingRule (snapshot : Snapshot)
| RuleReturned (size : nat).
Arguments EvaluatingRule {Snapshot} snapshot.
Arguments RuleReturned {Snapshot} size.

Inductive AutoMaterializeDecisionType := MATERIALIZE | SKIP | DISCARD.

(** ** Conditions and their construction operators *)

(** class [AutomationCondition] and its four subclasses, over the rules of
    auto_materialize_rule.py.  The subclasses are NamedTuples: a node
    stores its rule or its sequence of children as its tuple field. *)
#[warnings="-register-all"]
Inductive AutomationCondition (AutoMaterializeRule : Type) :=
| RuleCondition (rule : AutoMaterializeRule)
| AndAutomationCondition (children : list (AutomationCondition AutoMaterializeRule))
| OrAutomationCondition (children : list (AutomationCondition AutoMaterializeRule))
| NorAutomationCondition (children : list (AutomationCondition AutoMaterializeRule)).
Arguments RuleCondition {AutoMaterializeRule} rule.
Arguments AndAutomationCondition {AutoMaterializeRule} children.
Arguments OrAutomationCondition {AutoMaterializeRule} children.
Arguments NorAutomationCondition {AutoMaterializeRule} children.

Section Conditions.

Context {AutoMaterializeRule : Type}.
Implicit Types self other : AutomationCondition AutoMaterializeRule.

Definition isinstance_RuleCondition self : bool :=
  match self with RuleCondition _ => true | _ => false end.

Definition isinstance_And self : bool :=
  match self with AndAutomationCondition _ => true | _ => false end.

Definition isinstance_Or self : bool :=
  match self with OrAutomationCondition _ => true | _ => false end.

Definition isinstance_Nor self : bool :=
  match self with NorAutomationCondition _ => true | _ => false end.

(** The attribute [self.children] (lines 186-188).  In each class
    statement [AutomationCondition] precedes the NamedTuple base, so the
    method resolution order of, say, [AndAutomationCondition] is
    [AndAutomationCondition, AutomationCondition, ABC,
    _AndAutomationCondition, tuple, object], and the lookup stops at the
    abstract property [AutomationCondition.children], whose body is
    [raise NotImplementedError()].  [RuleCondition] has no field of that
    name at all.  (The nodes can still be built: [tuple.__new__] does not
    refuse a class with abstract members.) *)
Definition children self
  : outcome (list (AutomationCondition AutoMaterializeRule)) :=
  Raised NotImplementedError.

(** [AutomationCondition.__and__] *)
Definition and_ self other : outcome (AutomationCondition AutoMaterializeRule) :=
  if isinstance_And self then
    cs ← children self;
    mret (AndAutomationCondition (cs ++ [other]))
  else mret (AndAutomationCondition [self; other]).

(** [AutomationCondition.__or__] *)
Definition or_ self other : outcome (AutomationCondition AutoMaterializeRule) :=
  if isinstance_Or self then
    cs ← children self;
    mret (OrAutomationCondition (cs ++ [other]))
  else mret (OrAutomationCondition [self; other]).

(** [AutomationCondition.__invert__] *)
Definition invert self : outcome (AutomationCondition AutoMaterializeRule) :=
  if isinstance_Or self then
    cs ← children self;
    mret (NorAutomationCondition cs)
  else if isinstance_Nor self then
    cs ← children self;
    mret (OrAutomationCondition cs)
  else mret (NorAutomationCondition [self]).

(** [sequence[i]] *)
Definition getitem {A} (sequence : list A) (i : nat) : outcome A :=
  match sequence !! i with
  | Some item => Returned item
  | None => Raised IndexError
  end.

(** [AutomationCondition.is_legacy]; [and] short-circuits, and every
    conjunct looks [self.children] up again. *)
Definition is_legacy self : outcome bool :=
  if negb (isinstance_And self) then mret false else
  cs ← children self;
  if negb (bool_decide (length cs = 2)) then mret false else
  cs ← children self;
  first ← getitem cs 0;
  if negb (isinstance_Or first) then mret false else
  cs ← children self;
  second ← getitem cs 1;
  mret (isinstance_Nor second).

End Conditions.

(** ** The collaborators of the engine *)

(** What the engine imports from the rest of the package.  None of these
    modules is among the sources; the engine only calls them. *)
Class Collaborators := {
  (** auto_materialize_rule.py *)
  AutoMaterializeRule : Type;
  AutoMaterializeRuleSnapshot : Type;
  snapshot_eq_dec :: EqDecision AutoMaterializeRuleSnapshot;
  to_snapshot : AutoMaterializeRule → AutoMaterializeRuleSnapshot;
  decision_type : AutoMaterializeRule → AutoMaterializeDecisionType;
  DiscardOnMaxMaterializationsExceededRule : Z → AutoMaterializeRule;
  (** the evaluation data a rule attaches to a group of asset partitions *)
  EvaluationData : Type;
  (** asset_automation_condition_context.py: the per-asset context *)
  AssetAutomationEvaluationContext : Type;
  AssetDaemonAssetCursor : Type;
  get_new_asset_cursor :
    AssetAutomationEvaluationContext → AssetSubset → AssetSubset →
    AssetDaemonAssetCursor;
  (** asset_automation_condition_context.py: the per-node context, a
      dataclass with a [candidate_subset] field *)
  AssetAutomationConditionEvaluationContext : Type;
  context_candidate_subset :
    AssetAutomationConditionEvaluationContext → AssetSubset;
  get_root_condition_context :
    AssetAutomationEvaluationContext →
    AssetAutomationConditionEvaluationContext;
  (** [context.for_child(condition=c, candidate_subset=s)] *)
  for_child :
    AssetAutomationConditionEvaluationContext →
    AutomationCondition AutoMaterializeRule → AssetSubset →
    AssetAutomationConditionEvaluationContext;
  (** [context.with_candidate_subset(s)] *)
  with_candidate_subset :
    AssetAutomationConditionEvaluationContext → AssetSubset →
    AssetAutomationConditionEvaluationContext;
  (** [dataclasses.replace(context, candidate_subset=s)] *)
  dataclasses_replace :
    AssetAutomationConditionEvaluationContext → AssetSubset →
    AssetAutomationConditionEvaluationContext;
  (** [rule.evaluate_for_asset(context)] *)
  evaluate_for_asset :
    AutoMaterializeRule → AssetAutomationConditionEvaluationContext →
    list (EvaluationData * gset string);
  (** auto_materialize_rule_evaluation.py and asset_graph.py: the serialized
      record of a past evaluation *)
  AutoMaterializeAssetEvaluation : Type;
  AssetGraph : Type;
  rule_snapshots :
    AutoMaterializeAssetEvaluation → option (list AutoMaterializeRuleSnapshot);
  get_evaluated_subset :
    AutoMaterializeAssetEvaluation → AssetGraph → AssetSubset;
  get_rule_evaluation_results :
    AutoMaterializeAssetEvaluation → AutoMaterializeRuleSnapshot →
    AssetGraph → list (EvaluationData * gset string)
}.

(** ** The engine *)

Section Engine.

Context {engine : Collaborators}.

Local Abbreviation Condition := (AutomationCondition AutoMaterializeRule).
Local Abbreviation ConditionContext := AssetAutomationConditionEvaluationContext.

(** [RuleEvaluationResults]: pairs of evaluation data and the asset
    partitions they apply to, in the order the rule produced them. *)
Definition RuleEvaluationResults : Type :=
  list (EvaluationData * gset string).

(** *** class ConditionEvaluation *)
#[warnings="-register-all"]
Inductive ConditionEvaluation := mkConditionEvaluation {
  condition : Condition;
  true_subset : AssetSubset;
  candidate_subset : AssetSubset;
  discard_subset : option AssetSubset;
  discard_results : RuleEvaluationResults;
  results : RuleEvaluationResults;
  child_evaluations : list ConditionEvaluation
}.

(** [AutoMaterializeRuleEvaluation] (auto_materialize_rule_evaluation.py) *)
Record AutoMaterializeRuleEvaluation := {
  rule_snapshot : AutoMaterializeRuleSnapshot;
  evaluation_data : EvaluationData
}.

(** The first half of [ConditionEvaluation.all_results]: the node's own
    results, converted, when its condition is a [RuleCondition]. *)
Definition own_results (self : ConditionEvaluation)
  : list (AutoMaterializeRuleEvaluation * gset string) :=
  match condition self with
  | RuleCondition rule =>
      map (λ r, ({| rule_snapshot := to_snapshot rule;
                    evaluation_data := r.1 |}, r.2))
          (results self)
  | _ => []
  end.

(** [ConditionEvaluation.all_results] *)
Fixpoint all_results (self : ConditionEvaluation)
  : list (AutoMaterializeRuleEvaluation * gset string) :=
  foldl (λ results child, results ++ all_results child)
        (own_results self) (child_evaluations self).

(** Modelled from the spec: [context.empty_subset()] is
    [AssetSubset.empty] for the context's asset, on both context classes. *)
Definition empty_subset (context : ConditionContext) : AssetSubset :=
  AssetSubset_empty.

Definition asset_empty_subset (context : AssetAutomationEvaluationContext)
  : AssetSubset := AssetSubset_empty.

(** *** The [evaluate] methods *)

Definition Log : Type := list (LogEntry AutoMaterializeRuleSnapshot).

(** A call that may raise and that writes to the verbose log: its outcome
    and the entries written, which stay written when it raises. *)
Definition Eff (A : Type) : Type := outcome A * Log.

#[global] Instance eff_ret : MRet Eff := λ A value, (Returned value, []).

#[global] Instance eff_bind : MBind Eff := λ A B f m,
  match m.1 with
  | Returned value => ((f value).1, m.2 ++ (f value).2)
  | Raised error => (Raised error, m.2)
  end.

Definition eff_raise {A} (error : PyError) : Eff A := (Raised error, []).

(** [context.asset_context.daemon_context._verbose_log_fn(...)] *)
Definition verbose_log (entry : LogEntry AutoMaterializeRuleSnapshot)
  : Eff unit := (Returned (), [entry]).

(** The loop of [RuleCondition.evaluate]:
    [for _, asset_partitions in results: true_subset |= ...]. *)
Definition rule_true_subset (context : ConditionContext)
    (results : RuleEvaluationResults) : AssetSubset :=
  foldl (λ true_subset r, true_subset ∪ from_asset_partitions_set r.2)
        (empty_subset context) results.

(** The variables a loop over the children reads and rebinds: [context],
    [true_subset] and [child_evaluations]. *)
Record LoopState := {
  ls_context : ConditionContext;
  ls_true_subset : AssetSubset;
  ls_child_evaluations : list ConditionEvaluation
}.

Definition loop_start (context : ConditionContext) (true_subset : AssetSubset)
  : LoopState :=
  {| ls_context := context; ls_true_subset := true_subset;
     ls_child_evaluations := [] |}.

(** The node [RuleCondition.evaluate] returns (lines 237-251). *)
Definition rule_evaluation (rule : AutoMaterializeRule)
    (context : ConditionContext) : ConditionEvaluation :=
  let results := evaluate_for_asset rule context in
  let true_subset := rule_true_subset context results in
  {| condition := RuleCondition rule;
     true_subset := true_subset;
     candidate_subset := context_candidate_subset context;
     discard_subset := None; discard_results := [];
     results := results;
     child_evaluations := [] |}.

(** [RuleCondition.evaluate] *)
Definition RuleCondition_evaluate (rule : AutoMaterializeRule)
    (context : ConditionContext) : Eff ConditionEvaluation :=
  _ ← verbose_log (EvaluatingRule (to_snapshot rule));
  let node := rule_evaluation rule context in
  _ ← verbose_log (RuleReturned (size (true_subset node)));
  mret node.

Section LoopBodies.

Variable evaluate : Condition → ConditionContext → Eff ConditionEvaluation.

(** Body of the loop of [AndAutomationCondition.evaluate]; it rebinds
    [context].  A raised exception ends the loop. *)
Definition and_body (st : Eff LoopState) (child : Condition) : Eff LoopState :=
  st ← st;
  let context := for_child (ls_context st) child (ls_true_subset st) in
  result ← evaluate child context;
  mret {| ls_context := context;
          ls_true_subset := ls_true_subset st ∩ true_subset result;
          ls_child_evaluations := ls_child_evaluations st ++ [result] |}.

(** Body of the loop of [OrAutomationCondition.evaluate]; [context] is the
    one the node received. *)
Definition or_body (st : Eff LoopState) (child : Condition) : Eff LoopState :=
  st ← st;
  result ← evaluate child (ls_context st);
  mret {| ls_context := ls_context st;
          ls_true_subset := ls_true_subset st ∪ true_subset result;
          ls_child_evaluations := ls_child_evaluations st ++ [result] |}.

(** Body of the loop of [NorAutomationCondition.evaluate]; it rebinds
    [context]. *)
Definition nor_body (st : Eff LoopState) (child : Condition) : Eff LoopState :=
  st ← st;
  let context := with_candidate_subset (ls_context st) (ls_true_subset st) in
  result ← evaluate child context;
  mret {| ls_context := context;
          ls_true_subset := ls_true_subset st ∖ true_subset result;
          ls_child_evaluations := ls_child_evaluations st ++ [result] |}.

End LoopBodies.

(** The [ConditionEvaluation] a composite node returns after its loop:
    [candidate_subset=context.candidate_subset] reads [context] as the loop
    left it. *)
Definition composite_evaluation (self : Condition) (loop : Eff LoopState)
  : Eff ConditionEvaluation :=
  st ← loop;
  mret {| condition := self;
          true_subset := ls_true_subset st;
          candidate_subset := context_candidate_subset (ls_context st);
          discard_subset := None; discard_results := []; results := [];
          child_evaluations := ls_child_evaluations st |}.

(** [evaluate] of the four classes.  A composite node evaluates
    [self.children] for its [for] statement before anything else that can
    be observed, and the loop runs over what that lookup returns. *)
Fixpoint evaluate (self : Condition) (context : ConditionContext)
  : Eff ConditionEvaluation :=
  match self with
  | RuleCondition rule => RuleCondition_evaluate rule context
  | AndAutomationCondition _ =>
      match children self with
      | Raised error => eff_raise error
      | Returned cs =>
          composite_evaluation self
            (foldl (and_body evaluate)
                   (mret (loop_start context (context_candidate_subset context)))
                   cs)
      end
  | OrAutomationCondition _ =>
      match children self with
      | Raised error => eff_raise error
      | Returned cs =>
          composite_evaluation self
            (foldl (or_body evaluate)
                   (mret (loop_start context (empty_subset context))) cs)
      end
  | NorAutomationCondition _ =>
      match children self with
      | Raised error => eff_raise error
      | Returned cs =>
          composite_evaluation self
            (foldl (nor_body evaluate)
                   (mret (loop_start context (context_candidate_subset context)))
                   cs)
      end
  end.

(** *** The legacy adapter *)

(** [ConditionEvaluation.from_evaluation_and_rule] *)
Definition from_evaluation_and_rule
    (evaluation : AutoMaterializeAssetEvaluation) (asset_graph : AssetGraph)
    (rule : AutoMaterializeRule) : ConditionEvaluation :=
  let empty_subset := AssetSubset_empty in
  {| condition := RuleCondition rule;
     true_subset := empty_subset;
     candidate_subset :=
       match decision_type rule with
       | MATERIALIZE => empty_subset
       | _ => get_evaluated_subset evaluation asset_graph
       end;
     discard_subset := Some empty_subset;
     discard_results := [];
     results :=
       get_rule_evaluation_results evaluation (to_snapshot rule) asset_graph;
     child_evaluations := [] |}.

(** The comprehensions of [from_evaluation]: the rules of the children that
    are [RuleCondition]s and whose snapshot is in
    [evaluation.rule_snapshots or set()]. *)
Definition recorded_rules (evaluation : AutoMaterializeAssetEvaluation)
    (cs : list Condition) : list AutoMaterializeRule :=
  omap (λ c,
          match c with
          | RuleCondition rule =>
              if bool_decide
                   (to_snapshot rule ∈ default [] (rule_snapshots evaluation))
              then Some rule else None
          | _ => None
          end) cs.

(** [ConditionEvaluation.from_evaluation].  The unpacking
    [materialize_condition, skip_condition = condition.children] raises
    [ValueError] on a sequence whose length is not two. *)
Definition from_evaluation (condition : Condition)
    (evaluation : AutoMaterializeAssetEvaluation) (asset_graph : AssetGraph)
  : outcome (option ConditionEvaluation) :=
  legacy ← is_legacy condition;
  if negb legacy then mret None else
  let empty_subset := AssetSubset_empty in
  cs ← children condition;
  match cs with
  | [materialize_condition; skip_condition] =>
      materialize_children ← children materialize_condition;
      let materialize_rules :=
        recorded_rules evaluation materialize_children in
      skip_children ← children skip_condition;
      let skip_rules := recorded_rules evaluation skip_children in
      let child_nodes :=
        [ {| condition := materialize_condition;
             true_subset := empty_subset;
             candidate_subset := empty_subset;
             discard_subset := None; discard_results := [];
             results := [];
             child_evaluations :=
               map (from_evaluation_and_rule evaluation asset_graph)
                   materialize_rules |};
          {| condition := skip_condition;
             true_subset := empty_subset;
             candidate_subset := empty_subset;
             discard_subset := None; discard_results := [];
             results := [];
             child_evaluations :=
               map (from_evaluation_and_rule evaluation asset_graph)
                   skip_rules |} ] in
      mret (Some
        {| condition := condition;
           true_subset := get_evaluated_subset evaluation asset_graph;
           candidate_subset := empty_subset;
           discard_subset := None; discard_results := [];
           results := [];
           child_evaluations := child_nodes |})
  | _ => Raised ValueError
  end.

(** *** class AssetAutomationEvaluator *)

Record AssetAutomationEvaluator := {
  evaluator_condition : Condition;
  max_materializations_per_minute : option Z
}.

(** The default of the [max_materializations_per_minute] field. *)
Definition default_max_materializations_per_minute : option Z := Some 1%Z.

(** [condition_evaluation._replace(discard_subset=to_discard)] *)
Definition replace_discard_subset (self : ConditionEvaluation)
    (to_discard : AssetSubset) : ConditionEvaluation :=
  {| condition := condition self;
     true_subset := true_subset self;
     candidate_subset := candidate_subset self;
     discard_subset := Some to_discard;
     discard_results := discard_results self;
     results := results self;
     child_evaluations := child_evaluations self |}.

(** The block of [AssetAutomationEvaluator.evaluate] that computes
    [to_discard] (lines 344-353). *)
Definition evaluate_discard (self : AssetAutomationEvaluator)
    (context : AssetAutomationEvaluationContext)
    (condition_context : ConditionContext)
    (condition_evaluation : ConditionEvaluation) : Eff AssetSubset :=
  let to_discard := asset_empty_subset context in
  match max_materializations_per_minute self with
  | Some limit =>
      let discard_context :=
        dataclasses_replace condition_context
          (true_subset condition_evaluation) in
      let condition :=
        RuleCondition (DiscardOnMaxMaterializationsExceededRule limit) in
      discard_condition_evaluation ← evaluate condition discard_context;
      mret (true_subset discard_condition_evaluation)
  | None => mret to_discard
  end.

(** [AssetAutomationEvaluator.evaluate] *)
Definition evaluator_evaluate (self : AssetAutomationEvaluator)
    (context : AssetAutomationEvaluationContext)
  : Eff (ConditionEvaluation * AssetDaemonAssetCursor * AssetSubset) :=
  let condition_context := get_root_condition_context context in
  condition_evaluation ←
    evaluate (evaluator_condition self) condition_context;
  to_discard ←
    evaluate_discard self context condition_context condition_evaluation;
  mret (replace_discard_subset condition_evaluation to_discard,
        get_new_asset_cursor context
          (true_subset condition_evaluation) to_discard,
        to_discard).

(** *** Vocabulary of the statements below *)

(** The nodes of an evaluation tree in depth-first pre-order: a node, then
    the nodes below each of its children, children in their stored order. *)
Fixpoint preorder (self : ConditionEvaluation) : list ConditionEvaluation :=
  self :: concat (map preorder (child_evaluations self)).

(** *** The rest of class ConditionEvaluation *)

Section ChildLookup.

(** [==] on conditions, the equality of the NamedTuples the condition
    classes derive from. *)
Variable condition_eq : Condition → Condition → bool.

(** [ConditionEvaluation.for_child]: the first child evaluation whose
    condition equals the given one, [None] when there is none. *)
Definition evaluation_for_child (self : ConditionEvaluation)
    (child_condition : Condition) : option ConditionEvaluation :=
  find (λ child_evaluation,
          condition_eq (condition child_evaluation) child_condition)
       (child_evaluations self).

End ChildLookup.

Section ToEvaluation.

(** events.py, caching_instance_queryer.py *)
Variable AssetKey : Type.
Variable CachingInstanceQueryer : Type.

(** The keyword arguments of
    [AutoMaterializeAssetEvaluation.from_rule_evaluation_results]; the
    counts are Python integers. *)
Record RuleEvaluationResultsCall := {
  call_asset_key : AssetKey;
  call_asset_graph : AssetGraph;
  asset_partitions_by_rule_evaluation :
    list (AutoMaterializeRuleEvaluation * gset string);
  num_requested : Z;
  num_skipped : Z;
  num_discarded : Z;
  dynamic_partitions_store : CachingInstanceQueryer
}.

(** [AutoMaterializeAssetEvaluation.from_rule_evaluation_results]
    (auto_materialize_rule_evaluation.py) *)
Variable from_rule_evaluation_results :
  RuleEvaluationResultsCall → AutoMaterializeAssetEvaluation.

(** The first half of [ConditionEvaluation.to_evaluation] (lines 85-92):
    the skipped count, computed for legacy policies only.  The unpacking of
    the two child evaluations is guarded by the length test. *)
Definition skipped_subset_size (self : ConditionEvaluation) : outcome Z :=
  legacy ← is_legacy (condition self);
  if legacy && bool_decide (length (child_evaluations self) = 2)
  then
    match child_evaluations self with
    | [materialize_condition; skip_evaluation] =>
        mret (Z.of_nat (size (true_subset materialize_condition))
              - Z.of_nat (size (true_subset skip_evaluation)))%Z
    | _ => Raised ValueError
    end
  else mret 0%Z.

(** The call [ConditionEvaluation.to_evaluation] makes. *)
Definition to_evaluation_call (self : ConditionEvaluation)
    (asset_key : AssetKey) (asset_graph : AssetGraph)
    (instance_queryer : CachingInstanceQueryer) (to_discard : AssetSubset)
    (discard_results : list (AutoMaterializeRuleEvaluation * gset string))
  : outcome RuleEvaluationResultsCall :=
  skipped_subset_size ← skipped_subset_size self;
  mret {| call_asset_key := asset_key;
          call_asset_graph := asset_graph;
          asset_partitions_by_rule_evaluation :=
            all_results self ++ discard_results;
          num_requested := Z.of_nat (size (true_subset self ∖ to_discard));
          num_skipped := skipped_subset_size;
          num_discarded := Z.of_nat (size to_discard);
          dynamic_partitions_store := instance_queryer |}.

(** [ConditionEvaluation.to_evaluation] *)
Definition to_evaluation (self : ConditionEvaluation)
    (asset_key : AssetKey) (asset_graph : AssetGraph)
    (instance_queryer : CachingInstanceQueryer) (to_discard : AssetSubset)
    (discard_results : list (AutoMaterializeRuleEvaluation * gset string))
  : outcome AutoMaterializeAssetEvaluation :=
  call ← to_evaluation_call self asset_key asset_graph instance_queryer
           to_discard discard_results;
  mret (from_rule_evaluation_results call).

End ToEvaluation.

(** *** More vocabulary *)

(** A rule that reports asset partitions among the candidates of the
    context it is evaluated in, and no others. *)
Definition respects_candidates (rule : AutoMaterializeRule) : Prop :=
  ∀ context r, r ∈ evaluate_for_asset rule context →
               r.2 ⊆ context_candidate_subset context.

(** The converted results the legacy record holds for a rule. *)
Definition recorded_results (evaluation : AutoMaterializeAssetEvaluation)
    (asset_graph : AssetGraph) (rule : AutoMaterializeRule)
  : list (AutoMaterializeRuleEvaluation * gset string) :=
  map (λ r, ({| rule_snapshot := to_snapshot rule;
                evaluation_data := r.1 |}, r.2))
      (get_rule_evaluation_results evaluation (to_snapshot rule) asset_graph).

End Engine.

Arguments RuleEvaluationResultsCall {engine} AssetKey CachingInstanceQueryer.
Arguments call_asset_key {engine AssetKey CachingInstanceQueryer} _.
Arguments call_asset_graph {engine AssetKey CachingInstanceQueryer} _.
Arguments asset_partitions_by_rule_evaluation
  {engine AssetKey CachingInstanceQueryer} _.
Arguments num_requested {engine AssetKey CachingInstanceQueryer} _.
Arguments num_skipped {engine AssetKey CachingInstanceQueryer} _.
Arguments num_discarded {engine AssetKey CachingInstanceQueryer} _.
Arguments dynamic_partitions_store {engine AssetKey CachingInstanceQueryer} _.
Arguments to_evaluation_call {engine AssetKey CachingInstanceQueryer}
  self asset_key asset_graph instance_queryer to_discard discard_results.
Arguments to_evaluation {engine AssetKey CachingInstanceQueryer}
  from_rule_evaluation_results
  self asset_key asset_graph instance_queryer to_discard discard_results.

(** ** A concrete asset

    An instance of the collaborators, small enough to run: an asset whose
    partitions are named by strings, and contexts that carry nothing but
    their candidate subset. *)

Module Scenario.

Inductive rule :=
| FiresOn (partition : string)
| Missing
| Discard (limit : Z).

Definition rule_name (r : rule) : string :=
  match r with
  | FiresOn partition => partition
  | Missing => "MaterializeOnMissingRule"
  | Discard _ => "DiscardOnMaxMaterializationsExceededRule"
  end.

Definition rule_decision_type (r : rule) : AutoMaterializeDecisionType :=
  match r with
  | FiresOn _ | Missing => MATERIALIZE
  | Discard _ => DISCARD
  end.

(** The candidates beyond the first [limit], in the order of [elements]. *)
Definition excess (limit : Z) (candidates : gset string) : list string :=
  drop (Z.to_nat limit) (elements candidates).

(** [FiresOn p] fires on partition [p] when it is a candidate, [Missing] on
    every candidate, and [Discard n] on the candidates in excess of [n]. *)
Definition rule_evaluate (r : rule) (candidates : gset string)
  : list (string * gset string) :=
  match r with
  | FiresOn partition =>
      if bool_decide (partition ∈ candidates)
      then [("fired", {[partition]})] else []
  | Missing =>
      if bool_decide (candidates = ∅) then [] else [("missing", candidates)]
  | Discard limit =>
      match excess limit candidates with
      | [] => []
      | over => [("over the limit", list_to_set over)]
      end
  end.

#[export] Instance collaborators : Collaborators := {|
  AutoMaterializeRule := rule;
  AutoMaterializeRuleSnapshot := string;
  to_snapshot := rule_name;
  decision_type := rule_decision_type;
  DiscardOnMaxMaterializationsExceededRule := Discard;
  EvaluationData := string;
  AssetAutomationEvaluationContext := gset string;
  AssetDaemonAssetCursor := gset string * gset string;
  get_new_asset_cursor := λ _ to_materialize to_discard,
                            (to_materialize, to_discard);
  AssetAutomationConditionEvaluationContext := gset string;
  context_candidate_subset := λ context, context;
  get_root_condition_context := λ context, context;
  for_child := λ _ _ candidates, candidates;
  with_candidate_subset := λ _ candidates, candidates;
  dataclasses_replace := λ _ candidates, candidates;
  evaluate_for_asset := rule_evaluate;
  AutoMaterializeAssetEvaluation := list string * gset string;
  AssetGraph := unit;
  rule_snapshots := λ evaluation, Some evaluation.1;
  get_evaluated_subset := λ evaluation _, evaluation.2;
  get_rule_evaluation_results := λ evaluation snapshot _,
    if bool_decide (snapshot ∈ evaluation.1)
    then [("recorded", evaluation.2)] else []
|}.

Definition p1 : AutomationCondition rule := RuleCondition (FiresOn "p1").
Definition p2 : AutomationCondition rule := RuleCondition (FiresOn "p2").
Definition p3 : AutomationCondition rule := RuleCondition (FiresOn "p3").
Definition p4 : AutomationCondition rule := RuleCondition (FiresOn "p4").

(** The partitions of the asset. *)
Definition partitions : gset string := {["p1"; "p2"]}.

(** The serialized record of a past evaluation. *)
Definition recorded : list string * gset string := (["p1"; "p3"], {["p2"]}).

(** Evaluators over the rule [Missing], without and with a cap. *)
Definition uncapped : AssetAutomationEvaluator :=
  {| evaluator_condition := RuleCondition Missing;
     max_materializations_per_minute := None |}.

Definition capped : AssetAutomationEvaluator :=
  {| evaluator_condition := RuleCondition Missing;
     max_materializations_per_minute :=
       default_max_materializations_per_minute |}.

End Scenario.

(** ** Construction operators and the legacy shape *)

Section ConditionLaws.

Context {AutoMaterializeRule : Type}.
Implicit Types c self other : AutomationCondition AutoMaterializeRule.
Implicit Types cs : list (AutomationCondition AutoMaterializeRule).

Lemma and_unfold self other :
  and_ self other
  = if isinstance_And self then Raised NotImplementedError
    else Returned (AndAutomationCondition [self; other]).
Proof. by destruct self. Qed.

Lemma or_unfold self other :
  or_ self other
  = if isinstance_Or self then Raised NotImplementedError
    else Returned (OrAutomationCondition [self; other]).
Proof. by destruct self. Qed.

Lemma invert_unfold self :
  invert self
  = if isinstance_Or self || isinstance_Nor self
    then Raised NotImplementedError
    else Returned (NorAutomationCondition [self]).
Proof. by destruct self. Qed.

Lemma is_legacy_unfold self :
  is_legacy self
  = if isinstance_And self then Raised NotImplementedError
    else Returned false.
Proof. by destruct self. Qed.

(** C5 on the code: [c1 | c2] is the OR node over [c1, c2] unless [c1] is
    an OR node, where [|] raises; negating an OR or a NOR node raises; so
    for all conditions [c1] and [c2] the negation [~(c1 | c2)] raises
    [NotImplementedError] and yields no NOR node. *)
Theorem negated_or_raises :
  (∀ c1 c2, (disjunction ← or_ c1 c2; invert disjunction)
            = Raised NotImplementedError)
  ∧ (∀ c1 c2,
       or_ c1 c2
       = if isinstance_Or c1 then Raised NotImplementedError
         else Returned (OrAutomationCondition [c1; c2]))
  ∧ (∀ cs, invert (OrAutomationCondition cs) = Raised NotImplementedError)
  ∧ (∀ cs, invert (NorAutomationCondition cs) = Raised NotImplementedError).
Proof.
  split; [|split; [apply or_unfold|by split]].
  intros c1 c2. rewrite or_unfold. by destruct (isinstance_Or c1).
Qed.

(** C6 on the code: [c1 & c2] is the AND node over [c1, c2] unless [c1] is
    an AND node, where [&] raises; so for all conditions
    [(c1 & c2) & c3] raises [NotImplementedError] and no AND node with
    three children is built, while [c1 & (c2 & c3)], when neither [c1] nor
    [c2] is an AND node, is the AND node with the two children [c1] and
    [AND(c2, c3)]. *)
Theorem and_chain_raises :
  (∀ c1 c2 c3, (conjunction ← and_ c1 c2; and_ conjunction c3)
               = Raised NotImplementedError)
  ∧ (∀ c1 c2,
       and_ c1 c2
       = if isinstance_And c1 then Raised NotImplementedError
         else Returned (AndAutomationCondition [c1; c2]))
  ∧ (∀ c1 c2 c3,
       (conjunction ← and_ c2 c3; and_ c1 conjunction)
       = if isinstance_And c2 || isinstance_And c1
         then Raised NotImplementedError
         else Returned (AndAutomationCondition
                          [c1; AndAutomationCondition [c2; c3]])).
Proof.
  split; [|split; [apply and_unfold|]].
  - intros c1 c2 c3. rewrite and_unfold. by destruct (isinstance_And c1).
  - intros c1 c2 c3. rewrite and_unfold.
    destruct (isinstance_And c2); [done|]. simpl. apply and_unfold.
Qed.

(** C7 on the code: [is_legacy] raises [NotImplementedError] on every AND
    node, at [len(self.children)], and returns [False] on every other
    node; it never returns [True].  Of the examples, [AND(OR(a,b),
    NOR(c,d))] and [AND(a,b,c)] raise and [OR(AND(a,b), c)] gives
    [False]. *)
Theorem is_legacy_never_true :
  (∀ self,
     is_legacy self
     = if isinstance_And self then Raised NotImplementedError
       else Returned false)
  ∧ (∀ self, is_legacy self ≠ Returned true)
  ∧ (∀ a b c d,
       is_legacy (AndAutomationCondition
                    [OrAutomationCondition [a; b];
                     NorAutomationCondition [c; d]])
       = Raised NotImplementedError)
  ∧ (∀ a b c,
       is_legacy (AndAutomationCondition [a; b; c])
       = Raised NotImplementedError)
  ∧ (∀ a b c,
       is_legacy (OrAutomationCondition [AndAutomationCondition [a; b]; c])
       = Returned false).
Proof.
  split; [apply is_legacy_unfold|]. split; [|by repeat split].
  intros self. rewrite is_legacy_unfold. by destruct (isinstance_And self).
Qed.

End ConditionLaws.

(** ** Flattening an evaluation tree *)

Section Flattening.

Context {engine : Collaborators}.

(** The induction principle of evaluation trees: a property holds of every
    tree when it holds of a node whose children all have it. *)
Lemma ConditionEvaluation_tree_ind (P : ConditionEvaluation → Prop) :
  (∀ self, Forall P (child_evaluations self) → P self) →
  ∀ self, P self.
Proof.
  intros step. fix IH 1. intros [c t cand d dr r kids]. apply step. simpl.
  induction kids as [|kid kids IHkids]; constructor; [apply IH | exact IHkids].
Qed.

Lemma foldl_app_concat {A B} (f : B → list A) (l : list B) (acc : list A) :
  foldl (λ results child, results ++ f child) acc l
  = acc ++ concat (map f l).
Proof.
  revert acc. induction l as [|x l IH]; intros acc; simpl.
  - by rewrite app_nil_r.
  - by rewrite IH, app_assoc.
Qed.

Lemma all_results_unfold self :
  all_results self
  = foldl (λ results child, results ++ all_results child)
          (own_results self) (child_evaluations self).
Proof. by destruct self. Qed.

Lemma own_results_rule self rule :
  condition self = RuleCondition rule →
  own_results self
  = map (λ r, ({| rule_snapshot := to_snapshot rule;
                  evaluation_data := r.1 |}, r.2)) (results self).
Proof. unfold own_results. by intros ->. Qed.

Lemma own_results_composite self :
  isinstance_RuleCondition (condition self) = false → own_results self = [].
Proof. unfold own_results. by destruct (condition self). Qed.

(** C9: [all_results] is a depth-first pre-order flattening: a node's own
    converted results (none unless its condition is a [RuleCondition]) come
    first, followed by the flattened results of its children in their stored
    order; over the whole tree this is the concatenation of the nodes' own
    results along the pre-order traversal. *)
Theorem all_results_preorder self :
  all_results self
  = own_results self ++ concat (map all_results (child_evaluations self))
  ∧ all_results self = concat (map own_results (preorder self))
  ∧ own_results self
    = match condition self with
      | RuleCondition rule =>
          map (λ r, ({| rule_snapshot := to_snapshot rule;
                        evaluation_data := r.1 |}, r.2)) (results self)
      | _ => []
      end.
Proof.
  assert (∀ e, all_results e
               = own_results e ++ concat (map all_results (child_evaluations e)))
    as Hstep.
  { intros e. rewrite all_results_unfold. apply foldl_app_concat. }
  split; [apply Hstep|]. split.
  - induction self as [self IH] using ConditionEvaluation_tree_ind.
    rewrite Hstep. destruct self as [c t cand d dr r kids]; simpl in *.
    f_equal. induction IH as [|kid kids Hkid _ IHkids]; [done|].
    simpl. by rewrite map_app, concat_app, Hkid, IHkids.
  - reflexivity.
Qed.

End Flattening.

(** ** Evaluating a condition tree *)

Section EvaluationLaws.

Context {engine : Collaborators}.

Local Abbreviation Condition := (AutomationCondition AutoMaterializeRule).
Local Abbreviation ConditionContext := AssetAutomationConditionEvaluationContext.

Implicit Types context : ConditionContext.
Implicit Types asset_context : AssetAutomationEvaluationContext.
Implicit Types child c : Condition.
Implicit Types cs : list Condition.
Implicit Types rule : AutoMaterializeRule.
Implicit Types e self : ConditionEvaluation.
Implicit Types x : string.

Lemma evaluate_rule rule context :
  evaluate (RuleCondition rule) context
  = (Returned (rule_evaluation rule context),
     [EvaluatingRule (to_snapshot rule);
      RuleReturned (size (true_subset (rule_evaluation rule context)))]).
Proof. reflexivity. Qed.

Lemma evaluate_composite c context :
  isinstance_RuleCondition c = false →
  evaluate c context = (Raised NotImplementedError, []).
Proof. by destruct c. Qed.

(** C1 on the code: [AndAutomationCondition.evaluate] raises
    [NotImplementedError] on every AND node and in every context, at
    [for child in self.children]: no child is evaluated, nothing is
    logged and no [true_subset] is computed. *)
Theorem and_evaluate_raises cs context :
  evaluate (AndAutomationCondition cs) context
  = (Raised NotImplementedError, []).
Proof. reflexivity. Qed.

(** C3 on the code: [NorAutomationCondition.evaluate] raises
    [NotImplementedError] on every NOR node and in every context, before
    any child is evaluated or anything is subtracted. *)
Theorem nor_evaluate_raises cs context :
  evaluate (NorAutomationCondition cs) context
  = (Raised NotImplementedError, []).
Proof. reflexivity. Qed.

(** C4 on the code: [OrAutomationCondition.evaluate] raises
    [NotImplementedError] on every OR node and in every context, before any
    child is evaluated. *)
Theorem or_evaluate_raises cs context :
  evaluate (OrAutomationCondition cs) context
  = (Raised NotImplementedError, []).
Proof. reflexivity. Qed.

(** C2 on the code: [evaluate] returns a [ConditionEvaluation] for rule
    nodes only, and that one carries the candidate scope of the context
    it was invoked with; on every AND, OR and NOR node it raises and
    returns no [ConditionEvaluation] at all. *)
Theorem evaluate_returns_for_rules_only c context :
  evaluate c context
  = match c with
    | RuleCondition rule =>
        (Returned (rule_evaluation rule context),
         [EvaluatingRule (to_snapshot rule);
          RuleReturned (size (true_subset (rule_evaluation rule context)))])
    | _ => (Raised NotImplementedError, [])
    end
  ∧ (∀ e, (evaluate c context).1 = Returned e →
          isinstance_RuleCondition c = true
          ∧ candidate_subset e = context_candidate_subset context).
Proof.
  split; [by destruct c|].
  intros e He. destruct c; try discriminate. by injection He as <-.
Qed.

(** *** Rule nodes *)

Lemma elem_of_foldl_union x (X : gset string)
    (results : RuleEvaluationResults) :
  x ∈ foldl (λ true_subset r, true_subset ∪ from_asset_partitions_set r.2)
            X results
  ↔ x ∈ X ∨ ∃ r, r ∈ results ∧ x ∈ r.2.
Proof.
  revert X. induction results as [|r results IH]; intros X; simpl.
  - split; [by left|]. intros [?|(r & ?%elem_of_nil & _)]; done.
  - rewrite IH, elem_of_union. unfold from_asset_partitions_set. split.
    + intros [[?|?]|(r' & ? & ?)]; [by left|right..].
      * exists r. split; [by left|done].
      * exists r'. split; [by right|done].
    + intros [?|(r' & [->|?]%elem_of_cons & ?)]; [by left; left|by left; right|].
      right. by exists r'.
Qed.

Lemma elem_of_rule_true_subset x context (results : RuleEvaluationResults) :
  x ∈ rule_true_subset context results ↔ ∃ r, r ∈ results ∧ x ∈ r.2.
Proof.
  unfold rule_true_subset. rewrite elem_of_foldl_union.
  unfold empty_subset, AssetSubset_empty. split; [|by right].
  by intros [?%not_elem_of_empty|?].
Qed.

Lemma all_results_step self :
  all_results self
  = own_results self ++ concat (map all_results (child_evaluations self)).
Proof. rewrite all_results_unfold. apply foldl_app_concat. Qed.

(** X7: [RuleCondition.evaluate] returns, and the node it returns is true
    on exactly the asset partitions that some result of the rule lists; it
    keeps the rule's results as they are, has no child evaluations, and its
    scope plays no part: nothing is removed for not being a candidate. *)
Theorem rule_evaluate_collects rule context :
  let node := rule_evaluation rule context in
  (evaluate (RuleCondition rule) context).1 = Returned node
  ∧ (∀ x, x ∈ true_subset node
          ↔ ∃ r, r ∈ evaluate_for_asset rule context ∧ x ∈ r.2)
  ∧ results node = evaluate_for_asset rule context
  ∧ child_evaluations node = []
  ∧ all_results node
    = map (λ r, ({| rule_snapshot := to_snapshot rule;
                    evaluation_data := r.1 |}, r.2))
          (evaluate_for_asset rule context).
Proof.
  intros node. split; [done|]. split; [|done].
  intros x. apply elem_of_rule_true_subset.
Qed.

(** *** The legacy adapter *)

(** C8 on the code: [from_evaluation] returns [None] for every condition
    that is not an AND node and raises [NotImplementedError], inside
    [condition.is_legacy], for every AND node, legacy in shape or not, such
    as [AND(a, b, c)]; it never returns a reconstructed tree. *)
Theorem from_evaluation_raises_on_and (c : Condition)
    (evaluation : AutoMaterializeAssetEvaluation) (asset_graph : AssetGraph) :
  from_evaluation c evaluation asset_graph
  = (if isinstance_And c then Raised NotImplementedError else Returned None)
  ∧ (∀ tree, from_evaluation c evaluation asset_graph ≠ Returned (Some tree)).
Proof.
  assert (from_evaluation c evaluation asset_graph
          = if isinstance_And c then Raised NotImplementedError
            else Returned None) as Hc by by destruct c.
  split; [exact Hc|]. intros tree. rewrite Hc. by destruct (isinstance_And c).
Qed.

(** The node [from_evaluation_and_rule] builds for a rule is a rule node
    without children that is true nowhere, whose candidate scope is empty
    for a materialize rule and the record's evaluated subset otherwise, and
    whose flattening gives back the results the record holds for the rule,
    under the rule's snapshot. *)
Lemma from_evaluation_and_rule_results
    (evaluation : AutoMaterializeAssetEvaluation) (asset_graph : AssetGraph)
    rule :
  let node := from_evaluation_and_rule evaluation asset_graph rule in
  all_results node = recorded_results evaluation asset_graph rule
  ∧ condition node = RuleCondition rule
  ∧ true_subset node = ∅
  ∧ child_evaluations node = []
  ∧ candidate_subset node
    = match decision_type rule with
      | MATERIALIZE => ∅
      | _ => get_evaluated_subset evaluation asset_graph
      end.
Proof.
  intros node. split; [|done].
  unfold node. rewrite all_results_step. unfold own_results. simpl.
  by rewrite app_nil_r.
Qed.

(** *** The top-level evaluator *)

Lemma evaluator_evaluate_rule rule cap asset_context :
  let self := {| evaluator_condition := RuleCondition rule;
                 max_materializations_per_minute := cap |} in
  let root := get_root_condition_context asset_context in
  let node := rule_evaluation rule root in
  let discard_node limit :=
    rule_evaluation (DiscardOnMaxMaterializationsExceededRule limit)
      (dataclasses_replace root (true_subset node)) in
  let to_discard :=
    match cap with
    | Some limit => true_subset (discard_node limit)
    | None => AssetSubset_empty
    end in
  evaluator_evaluate self asset_context
  = (Returned (replace_discard_subset node to_discard,
               get_new_asset_cursor asset_context (true_subset node)
                 to_discard,
               to_discard),
     (evaluate (RuleCondition rule) root).2
     ++ match cap with
        | Some limit =>
            [EvaluatingRule
               (to_snapshot (DiscardOnMaxMaterializationsExceededRule limit));
             RuleReturned (size to_discard)]
        | None => []
        end).
Proof. by destruct cap. Qed.

Lemma evaluator_evaluate_composite (self : AssetAutomationEvaluator)
    asset_context :
  isinstance_RuleCondition (evaluator_condition self) = false →
  evaluator_evaluate self asset_context = (Raised NotImplementedError, []).
Proof.
  intros Hroot. unfold evaluator_evaluate.
  by rewrite (evaluate_composite _ _ Hroot).
Qed.

(** C10: whenever [AssetAutomationEvaluator.evaluate] returns, the discard
    subset it returns as third element is the [discard_subset] of the
    evaluation it returns as first element; without a materialization cap
    that subset is empty and the call evaluates no rule beyond those of the
    condition: it writes the log of the condition's evaluation and nothing
    more, where with a cap the discard rule's evaluation is logged after
    it.  The call returns when the root condition is a rule node, and
    raises, through the root's [evaluate], when it is an AND, OR or NOR
    node. *)
Theorem evaluator_discard_subset (self : AssetAutomationEvaluator)
    asset_context :
  let call := evaluator_evaluate self asset_context in
  let tree_evaluation :=
    evaluate (evaluator_condition self)
      (get_root_condition_context asset_context) in
  (∀ returned,
     call.1 = Returned returned →
     discard_subset returned.1.1 = Some returned.2
     ∧ (max_materializations_per_minute self = None →
        returned.2 = AssetSubset_empty
        ∧ discard_subset returned.1.1 = Some AssetSubset_empty
        ∧ call.2 = tree_evaluation.2)
     ∧ (∀ limit, max_materializations_per_minute self = Some limit →
        call.2
        = tree_evaluation.2
          ++ [EvaluatingRule
                (to_snapshot (DiscardOnMaxMaterializationsExceededRule limit));
              RuleReturned (size returned.2)]))
  ∧ (isinstance_RuleCondition (evaluator_condition self) = true →
     ∃ returned, call.1 = Returned returned)
  ∧ (isinstance_RuleCondition (evaluator_condition self) = false →
     call = (Raised NotImplementedError, [])).
Proof.
  intros call tree_evaluation.
  split; [|split]; [| |apply evaluator_evaluate_composite].
  - intros returned Hreturned. destruct self as [root cap].
    destruct root as [rule| | |]; try discriminate.
    unfold call, tree_evaluation in *. cbn [evaluator_condition] in *.
    rewrite evaluator_evaluate_rule in Hreturned |- *.
    cbn [fst snd] in *. injection Hreturned as <-.
    cbn [fst snd max_materializations_per_minute].
    split; [done|]. split.
    + intros ->. by rewrite app_nil_r.
    + by intros limit ->.
  - destruct self as [root cap]. destruct root as [rule| | |]; try discriminate.
    intros _. unfold call. rewrite evaluator_evaluate_rule. eauto.
Qed.

End EvaluationLaws.

(** ** Records out of the engine *)

Section Records.

Context {engine : Collaborators}.
Variable AssetKey : Type.
Variable CachingInstanceQueryer : Type.

Local Abbreviation Condition := (AutomationCondition AutoMaterializeRule).
Local Abbreviation ConditionContext := AssetAutomationConditionEvaluationContext.

Implicit Types context : ConditionContext.
Implicit Types asset_context : AssetAutomationEvaluationContext.
Implicit Types e self : ConditionEvaluation.
Implicit Types rule : AutoMaterializeRule.
Implicit Types asset_graph : AssetGraph.
Implicit Types asset_key : AssetKey.
Implicit Types instance_queryer : CachingInstanceQueryer.

Lemma skipped_subset_size_unfold self :
  skipped_subset_size self
  = if isinstance_And (condition self) then Raised NotImplementedError
    else Returned 0%Z.
Proof.
  unfold skipped_subset_size. rewrite is_legacy_unfold.
  by destruct (isinstance_And (condition self)).
Qed.

(** X2: [to_evaluation] raises [NotImplementedError] on every evaluation
    whose condition is an AND node, and on every other evaluation makes its
    call with zero skipped partitions, the partitions of [true_subset] that
    are not discarded as requested, the size of the discard subset as
    discarded, and the flattened rule results followed by the discard
    results: the skipped count of a legacy policy is never computed. *)
Theorem to_evaluation_never_skips self asset_key asset_graph
    instance_queryer (to_discard : gset string) discard_results :
  to_evaluation_call self asset_key asset_graph instance_queryer
    to_discard discard_results
  = if isinstance_And (condition self) then Raised NotImplementedError
    else Returned
           {| call_asset_key := asset_key;
              call_asset_graph := asset_graph;
              asset_partitions_by_rule_evaluation :=
                all_results self ++ discard_results;
              num_requested :=
                Z.of_nat (size (true_subset self ∖ to_discard));
              num_skipped := 0;
              num_discarded := Z.of_nat (size to_discard);
              dynamic_partitions_store := instance_queryer |}.
Proof.
  unfold to_evaluation_call. rewrite skipped_subset_size_unfold.
  by destruct (isinstance_And (condition self)).
Qed.

(** X1: with a rule node as root, when [dataclasses.replace] sets the
    candidate scope it is given and the discard rule reports candidates
    only, the evaluator returns the rule node's evaluation with only its
    [discard_subset] set, discards nothing but partitions that evaluation
    holds true, and [to_evaluation] of the result returns a call in which
    the requested and discarded counts add up to the size of that
    [true_subset]. *)
Theorem discard_within_requested rule cap asset_context :
  (∀ context scope,
     context_candidate_subset (dataclasses_replace context scope) = scope) →
  (∀ limit,
     respects_candidates (DiscardOnMaxMaterializationsExceededRule limit)) →
  let self := {| evaluator_condition := RuleCondition rule;
                 max_materializations_per_minute := cap |} in
  let node :=
    rule_evaluation rule (get_root_condition_context asset_context) in
  ∃ cursor to_discard log,
    evaluator_evaluate self asset_context
    = (Returned (replace_discard_subset node to_discard, cursor, to_discard),
       log)
    ∧ to_discard ⊆ true_subset node
    ∧ ∀ asset_key asset_graph instance_queryer discard_results,
      ∃ call,
        to_evaluation_call (replace_discard_subset node to_discard)
          asset_key asset_graph instance_queryer to_discard discard_results
        = Returned call
        ∧ (num_requested call + num_discarded call
           = Z.of_nat (size (true_subset node)))%Z.
Proof.
  intros Hreplace Hdiscard self node.
  pose proof (evaluator_evaluate_rule rule cap asset_context) as Hcall.
  cbv zeta in Hcall. fold self node in Hcall.
  eexists _, _, _. split; [exact Hcall|].
  assert (match cap with
          | Some limit =>
              true_subset
                (rule_evaluation
                   (DiscardOnMaxMaterializationsExceededRule limit)
                   (dataclasses_replace
                      (get_root_condition_context asset_context)
                      (true_subset node)))
          | None => AssetSubset_empty
          end ⊆ true_subset node) as Hsub.
  { destruct cap as [limit|].
    - intros x (r & Hr & Hx)%elem_of_rule_true_subset.
      apply (Hdiscard limit _ r Hr) in Hx. by rewrite Hreplace in Hx.
    - apply empty_subseteq. }
  split; [exact Hsub|].
  intros asset_key asset_graph instance_queryer discard_results.
  unfold to_evaluation_call. rewrite skipped_subset_size_unfold.
  eexists. split; [reflexivity|].
  cbn [num_requested num_discarded replace_discard_subset true_subset].
  rewrite size_difference by exact Hsub.
  apply subseteq_size in Hsub. lia.
Qed.

(** *** Looking up a child's evaluation *)

Section ChildLookup.

Variable condition_eq : Condition → Condition → bool.

Lemma find_first_match {A} (f : A → bool) (l : list A) :
  match find f l with
  | Some x =>
      ∃ i, l !! i = Some x ∧ f x = true
           ∧ ∀ j y, j < i → l !! j = Some y → f y = false
  | None => ∀ y, y ∈ l → f y = false
  end.
Proof.
  induction l as [|a l IH]; simpl.
  - by intros y ?%elem_of_nil.
  - destruct (f a) eqn:Ha.
    + exists 0. repeat split; [done|]. intros j y Hj. lia.
    + destruct (find f l) as [x|].
      * destruct IH as (i & Hi & Hx & Hbefore). exists (S i).
        repeat split; [done..|]. intros [|j] y Hj; simpl.
        -- by intros [= <-].
        -- apply Hbefore. lia.
      * intros y [->|?]%elem_of_cons; auto.
Qed.

(** [for_child] returns the first child evaluation, in stored order, whose
    condition equals the given one, and [None] exactly when no child
    evaluation has such a condition. *)
Lemma evaluation_for_child_first_match self (child_condition : Condition) :
  match evaluation_for_child condition_eq self child_condition with
  | Some e =>
      ∃ i, child_evaluations self !! i = Some e
           ∧ condition_eq (condition e) child_condition = true
           ∧ ∀ j e', j < i → child_evaluations self !! j = Some e' →
                     condition_eq (condition e') child_condition = false
  | None =>
      ∀ e, e ∈ child_evaluations self →
           condition_eq (condition e) child_condition = false
  end.
Proof. apply find_first_match. Qed.

End ChildLookup.

End Records.

(** ** The engine on the concrete asset *)

Import Scenario.

(** Decide a closed statement about finite sets by evaluating it. *)
Ltac by_computation := apply (bool_decide_unpack _); vm_compute; exact I.

Lemma scenario_rules_respect_candidates (r : rule) :
  respects_candidates (engine:=collaborators) r.
Proof.
  intros candidates result. destruct r as [partition| |limit]; simpl.
  - case_bool_decide; [|by intros ?%elem_of_nil].
    intros ->%list_elem_of_singleton. simpl. by apply singleton_subseteq_l.
  - case_bool_decide; [by intros ?%elem_of_nil|].
    by intros ->%list_elem_of_singleton.
  - destruct (excess limit candidates) as [|over rest] eqn:Hexcess;
      [by intros ?%elem_of_nil|].
    intros ->%list_elem_of_singleton x Hx. cbn [snd] in Hx.
    change (x ∈ list_to_set (C:=gset string) (over :: rest)) in Hx.
    apply elem_of_list_to_set in Hx. rewrite <-Hexcess in Hx.
    apply elem_of_elements.
    by apply (elem_of_sublist _ _ _ Hx), sublist_drop.
Qed.

(** The failing inputs of C1 to C4: the composite nodes over the rules
    [p1] and [p2] raise and log nothing, where each rule node alone is
    evaluated. *)
Example composite_nodes_raise :
  evaluate (AndAutomationCondition [p1; p2]) partitions
  = (Raised NotImplementedError, [])
  ∧ evaluate (OrAutomationCondition [p1; p2]) partitions
    = (Raised NotImplementedError, [])
  ∧ evaluate (NorAutomationCondition [p1; p2]) partitions
    = (Raised NotImplementedError, [])
  ∧ (evaluate p1 partitions).2 = [EvaluatingRule "p1"; RuleReturned 1].
Proof. repeat split; vm_compute; reflexivity. Qed.

(** The failing inputs of C5 to C8. *)
Example operators_raise :
  (disjunction ← or_ p1 p2; invert disjunction) = Raised NotImplementedError
  ∧ (conjunction ← and_ p1 p2; and_ conjunction p3)
    = Raised NotImplementedError
  ∧ is_legacy (AndAutomationCondition
                 [OrAutomationCondition [p1; p2];
                  NorAutomationCondition [p3; p4]])
    = Raised NotImplementedError
  ∧ from_evaluation (AndAutomationCondition [p1; p2; p3]) recorded ()
    = Raised NotImplementedError.
Proof. repeat split. Qed.

Lemma evaluator_discard_subset_witness :
  ∃ returned,
    (evaluator_evaluate uncapped partitions).1 = Returned returned
    ∧ max_materializations_per_minute uncapped = None
    ∧ discard_subset returned.1.1 = Some returned.2
    ∧ returned.2 = AssetSubset_empty
    ∧ (evaluator_evaluate uncapped partitions).2
      = (evaluate (RuleCondition Missing) partitions).2.
Proof.
  destruct (evaluator_discard_subset (engine:=collaborators)
              uncapped partitions) as (Hreturned & Hrule & _).
  destruct (Hrule eq_refl) as [returned Hcall].
  destruct (Hreturned returned Hcall) as (Hsame & Hnone & _).
  destruct (Hnone eq_refl) as (Hempty & _ & Hlog).
  exists returned. by repeat split.
Defined.

(** With the default cap of one, [Missing] requests both partitions and
    the one in excess is discarded; the discard rule's evaluation is
    logged last. *)
Example capped_evaluation :
  match (evaluator_evaluate capped partitions).1 with
  | Returned (evaluation, cursor, to_discard) =>
      Some (elements (true_subset evaluation), elements to_discard,
            (elements cursor.1, elements cursor.2))
  | Raised _ => None
  end = Some (["p1"; "p2"], ["p2"], (["p1"; "p2"], ["p2"]))
  ∧ (evaluator_evaluate capped partitions).2
    = [EvaluatingRule "MaterializeOnMissingRule"; RuleReturned 2;
       EvaluatingRule "DiscardOnMaxMaterializationsExceededRule";
       RuleReturned 1].
Proof. split; vm_compute; reflexivity. Qed.

Lemma discard_within_requested_witness :
  ∃ cursor to_discard log,
    evaluator_evaluate capped partitions
    = (Returned
         (replace_discard_subset (rule_evaluation Missing partitions)
            to_discard, cursor, to_discard), log)
    ∧ to_discard ⊆ true_subset (rule_evaluation Missing partitions)
    ∧ ∃ call,
        to_evaluation_call
          (replace_discard_subset (rule_evaluation Missing partitions)
             to_discard) "asset" () () to_discard []
        = Returned call
        ∧ (num_requested call + num_discarded call
           = Z.of_nat (size (true_subset (rule_evaluation Missing partitions))))%Z.
Proof.
  destruct (discard_within_requested (engine:=collaborators) string unit
              Missing default_max_materializations_per_minute partitions)
    as (cursor & to_discard & log & Hcall & Hsub & Hcounts).
  - intros context scope. reflexivity.
  - intros limit. apply scenario_rules_respect_candidates.
  - exists cursor, to_discard, log. split; [exact Hcall|].
    split; [exact Hsub | exact (Hcounts "asset" () () [])].
Defined.

